(** * IP allowlist middleware: a shallow embedding of [firewall/]

    The development follows the Python sources file by file:
    - [firewall/models.py]: the two tables, [AllowedIP] and [BlockedIPLog];
    - [firewall/middlewate.py]: [IPFirewallMiddleware.get_client_ip] and
      [IPFirewallMiddleware.__call__];
    - [firewall/migrations/0002_auto_add_localhost.py]: [add_default_ip].

    Python values that are "a [str] or [None]" are [option string];
    [request.META] is a finite map from strings to strings, so that
    [META.get(k)] is the map lookup.  The calls the code makes into the
    framework (the two model managers, [print], the downstream
    [get_response]) form an effect signature; a program is a tree of such
    calls and [run] executes it against a world made of the two tables, the
    standard output and the clock, returning the list of calls performed.

    The tables are lists of rows in insertion order.  Both models declare
    their address as a [GenericIPAddressField] that may not be null, so a
    [create] first prepares the value as that field does: a string holding
    a colon goes through the IPv6 cleaner and is stored in normal form when
    the cleaner accepts it, and an empty string or [None] becomes NULL, on
    which the insertion raises [IntegrityError] and writes nothing.
    [AllowedIP.objects.create] moreover refuses a prepared address that is
    already in the table, as [unique=True] asks.  The cleaner itself is the
    framework's; it is a parameter of [run].  The downstream
    handler is any function from a request and a world to a response and a
    world: it may print and write to the tables itself
    ([firewall/admin.py] registers [AllowedIP] with the admin site, which
    edits the allowlist that way). *)

From Stdlib Require Import Ascii String ZArith.
From stdpp Require Import base strings list gmap.

Open Scope string_scope.
Open Scope list_scope.

(** ** Python built-ins used by the code, and two more to speak about them *)

Module Py.

(** Truth value of a [str]: only the empty string is falsy. *)
Definition truthy (s : string) : bool :=
  match s with
  | EmptyString => false
  | String _ _ => true
  end.

(** [s.split(sep)] for a one-character separator, as its first piece and
    the remaining ones: the result of [split] is never the empty list. *)
Fixpoint split_pieces (sep : ascii) (s : string) : string * list string :=
  match s with
  | EmptyString => (EmptyString, [])
  | String a s' =>
      let '(piece, pieces) := split_pieces sep s' in
      if decide (a = sep) then (EmptyString, piece :: pieces)
      else (String a piece, pieces)
  end.

Definition split (sep : ascii) (s : string) : list string :=
  let '(piece, pieces) := split_pieces sep s in piece :: pieces.

(** [l[0]]; the default stands for [IndexError] and is never reached on
    the result of [split] (lemma [split_not_nil]). *)
Definition item0 (l : list string) : string := hd EmptyString l.

(** [sep.join(l)]. *)
Definition join (sep : ascii) (l : list string) : string :=
  String.concat (String sep EmptyString) l.

(** [c in s] for a character. *)
Fixpoint contains (c : ascii) (s : string) : bool :=
  match s with
  | EmptyString => false
  | String a s' => if decide (a = c) then true else contains c s'
  end.

(** [str(v)] as used by an f-string field. *)
Definition str (v : option string) : string :=
  match v with
  | Some s => s
  | None => "None"
  end.

(** [v in l] for a list of strings: [None] equals no string. *)
Definition elem (v : option string) (l : list string) : bool :=
  match v with
  | Some s => bool_decide (s ∈ l)
  | None => false
  end.

End Py.

(** ** The address field of both models *)

Module GenericIPAddressField.
Section Field.
(** [clean_ipv6_address]: the normal form of a valid IPv6 spelling, [None]
    where the framework raises [ValidationError]. *)
Variable clean_ipv6_address : string -> option string.

(** [get_prep_value]: [None] stays [None]; a non-empty string with a colon
    is cleaned, and kept as it is when the cleaner rejects it; any other
    string is kept. *)
Definition get_prep_value (value : option string) : option string :=
  match value with
  | None => None
  | Some s =>
      if Py.truthy s && Py.contains ":" s then
        match clean_ipv6_address s with
        | Some cleaned => Some cleaned
        | None => Some s
        end
      else Some s
  end.

(** [adapt_ipaddressfield_value]: [value or None]. *)
Definition adapt_ipaddressfield_value (value : option string) : option string :=
  match value with
  | Some s => if Py.truthy s then Some s else None
  | None => None
  end.

(** [get_db_prep_value]: what reaches the column, [None] for NULL. *)
Definition get_db_prep_value (value : option string) : option string :=
  adapt_ipaddressfield_value (get_prep_value value).
End Field.
End GenericIPAddressField.

Arguments GenericIPAddressField.get_db_prep_value : simpl never.

(** ** [firewall/models.py] *)

Module AllowedIP.
Record t := mk {
  ip_address : string;     (* GenericIPAddressField(unique=True), as stored *)
  description : string     (* CharField(max_length=255, blank=True) *)
}.

(** [__str__] *)
Definition __str__ (self : t) : string :=
  ip_address self +:+ " - " +:+ description self.
End AllowedIP.

Module BlockedIPLog.
Record t := mk {
  ip_address : string;         (* GenericIPAddressField(), as stored *)
  accessed_path : string;
  timestamp : Z                (* auto_now_add: the clock at insertion *)
}.
End BlockedIPLog.

(** ** Requests and responses *)

Record HttpRequest := mkHttpRequest {
  META : gmap string string;
  path : string
}.

Record HttpResponse := mkHttpResponse {
  status_code : Z;
  content : string
}.

Definition HttpResponseForbidden (body : string) : HttpResponse :=
  mkHttpResponse 403 body.

(** ** The world the code runs in *)

(** One argument of a [print] call. *)
Inductive PrintArg :=
| PStr (s : string)
| PValue (v : option string)
| PList (l : list string).

Record World := mkWorld {
  allowed_ip : list AllowedIP.t;        (* table of AllowedIP, insertion order *)
  blocked_ip_log : list BlockedIPLog.t; (* table of BlockedIPLog, insertion order *)
  stdout : list (list PrintArg);        (* one entry per print call *)
  now : Z                               (* current time *)
}.

Definition set_allowed_ip (rows : list AllowedIP.t) (w : World) : World :=
  mkWorld rows (blocked_ip_log w) (stdout w) (now w).

Definition set_blocked_ip_log (rows : list BlockedIPLog.t) (w : World) : World :=
  mkWorld (allowed_ip w) rows (stdout w) (now w).

Definition set_stdout (out : list (list PrintArg)) (w : World) : World :=
  mkWorld (allowed_ip w) (blocked_ip_log w) out (now w).


(** The addresses currently in the allowlist table. *)
Definition addresses (w : World) : list string :=
  map AllowedIP.ip_address (allowed_ip w).

(** ** Calls into the framework, and programs over them *)

Inductive Call : Type -> Type :=
| AllowedIP_objects_all : Call (list AllowedIP.t)
| AllowedIP_objects_create (ip_address description : string) : Call unit
| BlockedIPLog_objects_create
    (ip_address : option string) (accessed_path : string) : Call unit
| print (args : list PrintArg) : Call unit
| get_response (request : HttpRequest) : Call HttpResponse.

Inductive Prog (R : Type) : Type :=
| Return (r : R)
| Bind {X : Type} (c : Call X) (k : X -> Prog R).

Arguments Return {R} r.
Arguments Bind {R X} c k.

Fixpoint prog_bind {A B : Type} (k : A -> Prog B) (p : Prog A) : Prog B :=
  match p with
  | Return a => k a
  | Bind c k' => Bind c (fun x => prog_bind k (k' x))
  end.

#[export] Instance Prog_ret : MRet Prog := @Return.
#[export] Instance Prog_bind : MBind Prog := @prog_bind.

Definition call {X : Type} (c : Call X) : Prog X := Bind c Return.

Inductive Exn := IntegrityError.

Inductive Result (R : Type) : Type :=
| Returned (r : R)
| Raised (e : Exn).

Arguments Returned {R} r.
Arguments Raised {R} e.

(** A performed call, with its arguments. *)
Definition Event : Type := sigT Call.
Definition event {X : Type} (c : Call X) : Event := existT X c.

(** What the rest of the application does with a forwarded request. *)
Definition Downstream : Type := HttpRequest -> World -> HttpResponse * World.

Section Run.
Variable clean_ipv6_address : string -> option string.
Variable downstream : Downstream.

(** One call against the world.  An insertion prepares the address as the
    field does and raises [IntegrityError], writing nothing, when the
    column would be NULL; the allowlist table also refuses a prepared
    address it already holds ([unique=True]). *)
Definition perform {X : Type} (c : Call X) (w : World) : Result X * World :=
  match c in Call X return Result X * World with
  | AllowedIP_objects_all => (Returned (allowed_ip w), w)
  | AllowedIP_objects_create ip desc =>
      match GenericIPAddressField.get_db_prep_value
              clean_ipv6_address (Some ip) with
      | None => (Raised IntegrityError, w)
      | Some stored =>
          if bool_decide (stored ∈ addresses w) then (Raised IntegrityError, w)
          else (Returned tt,
                set_allowed_ip (allowed_ip w ++ [AllowedIP.mk stored desc]) w)
      end
  | BlockedIPLog_objects_create ip p =>
      match GenericIPAddressField.get_db_prep_value clean_ipv6_address ip with
      | None => (Raised IntegrityError, w)
      | Some stored =>
          (Returned tt,
           set_blocked_ip_log
             (blocked_ip_log w ++ [BlockedIPLog.mk stored p (now w)]) w)
      end
  | print args => (Returned tt, set_stdout (stdout w ++ [args]) w)
  | get_response request =>
      let '(response, w') := downstream request w in (Returned response, w')
  end.

(** Run a program: its result, the final world, the calls performed. *)
Fixpoint run {R : Type} (p : Prog R) (w : World)
  : Result R * World * list Event :=
  match p with
  | Return r => (Returned r, w, [])
  | Bind c k =>
      match perform c w with
      | (Returned x, w') =>
          let '(res, w'', calls) := run (k x) w' in
          (res, w'', event c :: calls)
      | (Raised e, w') => (Raised e, w', [event c])
      end
  end.
End Run.

(** A call to the downstream handler. *)
Definition is_get_response (e : Event) : bool :=
  match projT2 e with
  | get_response _ => true
  | _ => false
  end.

(** A row inserted in the log table. *)
Definition is_log_create (e : Event) : bool :=
  match projT2 e with
  | BlockedIPLog_objects_create _ _ => true
  | _ => false
  end.

(** ** [firewall/middlewate.py] *)

Module IPFirewallMiddleware.

Definition get_client_ip (request : HttpRequest) : option string :=
  let x_forwarded_for := META request !! "HTTP_X_FORWARDED_FOR" in
  match x_forwarded_for with
  | Some xff =>
      if Py.truthy xff then Some (Py.item0 (Py.split "," xff))
      else META request !! "REMOTE_ADDR"
  | None => META request !! "REMOTE_ADDR"
  end.

Definition __call__ (request : HttpRequest) : Prog HttpResponse :=
  rows ← call AllowedIP_objects_all;
  let allowed_ips := map AllowedIP.ip_address rows in
  let remote_ip := get_client_ip request in
  call (print [PStr "📌 요청한 클라이언트 IP:"; PValue remote_ip]);;
  call (print [PStr "✅ 현재 허용된 IP 목록:"; PList allowed_ips]);;
  if negb (Py.elem remote_ip allowed_ips) then
    call (BlockedIPLog_objects_create remote_ip (path request));;
    mret (HttpResponseForbidden ("Access denied for IP: " +:+ Py.str remote_ip))
  else
    call (get_response request).

End IPFirewallMiddleware.

(** ** [firewall/migrations/0002_auto_add_localhost.py] *)

Definition add_default_ip : Prog unit :=
  call (AllowedIP_objects_create "127.0.0.1" "localhost default access");;
  call (AllowedIP_objects_create "10.223.112.35" "Postman test").

(** ** Observations on a run *)

Definition result_of {R : Type} (out : Result R * World * list Event) : Result R :=
  out.1.1.

Definition world_of {R : Type} (out : Result R * World * list Event) : World :=
  out.1.2.

Definition calls_of {R : Type} (out : Result R * World * list Event) : list Event :=
  out.2.

(** The world once [__call__] has printed its two diagnostic lines. *)
Definition diagnostics (request : HttpRequest) (w : World) : World :=
  set_stdout
    (stdout w ++
       [[PStr "📌 요청한 클라이언트 IP:";
         PValue (IPFirewallMiddleware.get_client_ip request)];
        [PStr "✅ 현재 허용된 IP 목록:"; PList (addresses w)]])
    w.

(** The calls of the deny branch of [__call__]. *)
Definition deny_calls (request : HttpRequest) (w : World) : list Event :=
  [event AllowedIP_objects_all;
   event (print [PStr "📌 요청한 클라이언트 IP:";
                 PValue (IPFirewallMiddleware.get_client_ip request)]);
   event (print [PStr "✅ 현재 허용된 IP 목록:"; PList (addresses w)]);
   event (BlockedIPLog_objects_create
            (IPFirewallMiddleware.get_client_ip request) (path request))].

(** The row [__call__] inserts for a denied request whose address is
    stored as [stored]. *)
Definition denied_row (stored : string) (request : HttpRequest) (w : World)
  : BlockedIPLog.t :=
  BlockedIPLog.mk stored (path request) (now w).

(** A write to the allowlist table. *)
Definition is_allowlist_write (e : Event) : bool :=
  match projT2 e with
  | AllowedIP_objects_create _ _ => true
  | _ => false
  end.

(** The middleware serving requests one after the other, each run starting
    in the world the previous one left. *)
Fixpoint serve (clean_ipv6_address : string -> option string)
    (downstream : Downstream) (requests : list HttpRequest)
    (w : World) : World :=
  match requests with
  | [] => w
  | request :: rest =>
      serve clean_ipv6_address downstream rest
        (world_of
           (run clean_ipv6_address downstream
              (IPFirewallMiddleware.__call__ request) w))
  end.

(** The request is one the allowlist of [w] turns away. *)
Definition turned_away (w : World) (request : HttpRequest) : bool :=
  negb (Py.elem (IPFirewallMiddleware.get_client_ip request) (addresses w)).

(** What a log row says, the time of insertion left out. *)
Definition log_entry (row : BlockedIPLog.t) : string * string :=
  (BlockedIPLog.ip_address row, BlockedIPLog.accessed_path row).

(** What a request leaves in the log of [w], if anything: turned away, and
    with an address the column takes. *)
Definition logged (clean_ipv6_address : string -> option string)
    (w : World) (request : HttpRequest) : option (string * string) :=
  if turned_away w request then
    match GenericIPAddressField.get_db_prep_value clean_ipv6_address
            (IPFirewallMiddleware.get_client_ip request) with
    | Some stored => Some (stored, path request)
    | None => None
    end
  else None.

(** ** The specification's resolver, for comparison *)

Module Spec.
(** White space: the blank and the ASCII control characters 9 to 13. *)
Definition is_space (a : ascii) : bool :=
  let n := nat_of_ascii a in
  bool_decide (n = 32 ∨ (9 ≤ n ∧ n ≤ 13))%nat.

Fixpoint trim_left (s : string) : string :=
  match s with
  | EmptyString => EmptyString
  | String a s' => if is_space a then trim_left s' else s
  end.

Fixpoint trim_right (s : string) : string :=
  match s with
  | EmptyString => EmptyString
  | String a s' =>
      match trim_right s' with
      | EmptyString => if is_space a then EmptyString else String a EmptyString
      | r => String a r
      end
  end.

Definition trim (s : string) : string := trim_right (trim_left s).

(** "split it on comma, trim whitespace, and take the first entry" *)
Definition forwarded_client (header : string) : string :=
  Py.item0 (map trim (Py.split "," header)).
End Spec.

(** ** Concrete requests, worlds and handlers *)

Module Scenario.
(** A direct request: no forwarding header. *)
Definition direct (peer url : string) : HttpRequest :=
  mkHttpRequest {[ "REMOTE_ADDR" := peer ]} url.

(** A request relayed by a proxy. *)
Definition proxied (header peer url : string) : HttpRequest :=
  mkHttpRequest
    (<["HTTP_X_FORWARDED_FOR" := header]> {[ "REMOTE_ADDR" := peer ]}) url.

(** A peer outside the allowlist, the loopback peer, a peer with an empty
    address, and the second seeded address. *)
Definition outsider : HttpRequest := direct "8.8.8.8" "/admin/".
Definition local : HttpRequest := direct "127.0.0.1" "/admin/".
Definition nameless : HttpRequest := direct "" "/".
Definition postman : HttpRequest := direct "10.223.112.35" "/".

(** The tables right after the schema migration, at time [0]. *)
Definition fresh : World := mkWorld [] [] [] 0.

(** An allowlist holding the loopback address only. *)
Definition loopback_only : World :=
  mkWorld [AllowedIP.mk "127.0.0.1" "localhost default access"] [] [] 0.

(** A view that answers 200 and leaves a line on the standard output. *)
Definition view : Downstream :=
  fun request w =>
    (mkHttpResponse 200 (path request),
     set_stdout (stdout w ++ [[PStr "view"; PStr (path request)]]) w).

(** A view that answers 200 and touches nothing. *)
Definition silent : Downstream :=
  fun request w => (mkHttpResponse 200 (path request), w).

(** The same forwarding header arriving over two different connections. *)
Definition claimed_a : HttpRequest := proxied "6.6.6.6, 10.0.0.1" "1.1.1.1" "/x".
Definition claimed_b : HttpRequest := proxied "6.6.6.6, 10.0.0.1" "2.2.2.2" "/x".

(** A request that carries neither a forwarding header nor a peer address. *)
Definition anonymous : HttpRequest := mkHttpRequest ∅ "/".

(** The IPv6 cleaner on the spellings used here: two addresses in a long
    spelling and in their normal form.  It is asked about nothing else. *)
Definition clean : string -> option string :=
  fun s =>
    if decide (s = "::0001") then Some "::1"
    else if decide (s = "::1") then Some "::1"
    else if decide (s = "2001:0DB8:0:0:0:0:0:1") then Some "2001:db8::1"
    else if decide (s = "2001:db8::1") then Some "2001:db8::1"
    else None.

(** Peers with an IPv6 address in a long spelling. *)
Definition long_loopback : HttpRequest := direct "::0001" "/".
Definition long_documentation : HttpRequest :=
  direct "2001:0DB8:0:0:0:0:0:1" "/".
End Scenario.

(** * Properties *)

(** ** [str.split] *)

Section Split.
Variable sep : ascii.

Lemma split_not_nil (s : string) : Py.split sep s ≠ [].
Proof. unfold Py.split. destruct (Py.split_pieces sep s). discriminate. Qed.

Lemma split_cons (a : ascii) (s : string) :
  Py.split sep (String a s) =
    if decide (a = sep) then EmptyString :: Py.split sep s
    else String a (Py.item0 (Py.split sep s)) :: tl (Py.split sep s).
Proof.
  unfold Py.split. simpl.
  destruct (Py.split_pieces sep s) as [piece pieces].
  destruct (decide (a = sep)); reflexivity.
Qed.

(** Joining the pieces with the separator gives the string back. *)
Lemma join_split (s : string) : Py.join sep (Py.split sep s) = s.
Proof.
  induction s as [|a s IH]; [reflexivity|].
  rewrite split_cons.
  pose proof (split_not_nil s) as Hne.
  destruct (Py.split sep s) as [|piece pieces]; [contradiction|].
  unfold Py.join in *. simpl in *.
  destruct (decide (a = sep)) as [->|_].
  - simpl. destruct pieces; simpl in *; rewrite IH; reflexivity.
  - simpl. destruct pieces; simpl in *; rewrite <- IH; reflexivity.
Qed.

(** No piece contains the separator. *)
Lemma split_sep_free (s : string) :
  Forall (fun piece => Py.contains sep piece = false) (Py.split sep s).
Proof.
  induction s as [|a s IH]; [repeat constructor|].
  rewrite split_cons.
  pose proof (split_not_nil s) as Hne.
  destruct (Py.split sep s) as [|piece pieces]; [contradiction|].
  inversion IH as [|? ? Hpiece Hpieces]; subst.
  destruct (decide (a = sep)) as [->|Hneq].
  - constructor; [reflexivity|]. constructor; assumption.
  - constructor; [|assumption]. simpl.
    destruct (decide (a = sep)); [contradiction|assumption].
Qed.

(** The first piece is the text before the first separator. *)
Lemma item0_split (s : string) :
  Py.contains sep (Py.item0 (Py.split sep s)) = false ∧
  (s = Py.item0 (Py.split sep s) ∨
   ∃ rest, s = Py.item0 (Py.split sep s) +:+ String sep rest).
Proof.
  split.
  - pose proof (split_sep_free s) as Hfree.
    pose proof (split_not_nil s) as Hne.
    destruct (Py.split sep s); [contradiction|].
    inversion Hfree; assumption.
  - induction s as [|a s IH]; [left; reflexivity|].
    rewrite split_cons.
    destruct (decide (a = sep)) as [->|_]; simpl.
    + right. exists s. reflexivity.
    + destruct IH as [IH|[rest IH]].
      * left. congruence.
      * right. exists rest. exact (f_equal (String a) IH).
Qed.

(** A string without the separator is its own single piece. *)
Lemma split_no_sep (s : string) :
  Py.contains sep s = false → Py.split sep s = [s].
Proof.
  induction s as [|a s IH]; [reflexivity|].
  simpl. rewrite split_cons.
  destruct (decide (a = sep)); [discriminate|].
  intros H. rewrite (IH H). reflexivity.
Qed.
End Split.

(** ** What the address field stores *)

Section Stored.
Variable clean_ipv6_address : string -> option string.

Lemma stored_None :
  GenericIPAddressField.get_db_prep_value clean_ipv6_address None = None.
Proof. reflexivity. Qed.

Lemma stored_empty :
  GenericIPAddressField.get_db_prep_value clean_ipv6_address (Some "") = None.
Proof. reflexivity. Qed.

(** A non-empty string without a colon is stored as it is. *)
Lemma stored_plain (s : string) :
  s ≠ "" →
  Py.contains ":" s = false →
  GenericIPAddressField.get_db_prep_value clean_ipv6_address (Some s) = Some s.
Proof.
  intros Hne Hplain.
  unfold GenericIPAddressField.get_db_prep_value,
    GenericIPAddressField.get_prep_value.
  rewrite Hplain, andb_false_r. cbn.
  destruct s; [contradiction|reflexivity].
Qed.

End Stored.

(** ** One run of [__call__] *)

Import IPFirewallMiddleware.

Section Gate.
Variable clean_ipv6_address : string -> option string.
Variable downstream : Downstream.

(** [Py.elem] on a string is list membership. *)
Lemma elem_Some (s : string) (l : list string) :
  Py.elem (Some s) l = true ↔ s ∈ l.
Proof. simpl. apply bool_decide_eq_true. Qed.

Lemma not_elem_Some (s : string) (l : list string) :
  Py.elem (Some s) l = false ↔ s ∉ l.
Proof. simpl. apply bool_decide_eq_false. Qed.

(** The diagnostics touch neither table nor the clock. *)
Lemma diagnostics_frame (request : HttpRequest) (w : World) :
  allowed_ip (diagnostics request w) = allowed_ip w ∧
  blocked_ip_log (diagnostics request w) = blocked_ip_log w ∧
  now (diagnostics request w) = now w.
Proof. repeat split. Qed.

(** The deny branch when the column takes the address. *)
Lemma run_deny (request : HttpRequest) (w : World) (stored : string) :
  Py.elem (get_client_ip request) (addresses w) = false →
  GenericIPAddressField.get_db_prep_value clean_ipv6_address
    (get_client_ip request) = Some stored →
  run clean_ipv6_address downstream (__call__ request) w =
    (Returned
       (HttpResponseForbidden
          ("Access denied for IP: " +:+ Py.str (get_client_ip request))),
     set_blocked_ip_log
       (blocked_ip_log w ++ [denied_row stored request w])
       (diagnostics request w),
     deny_calls request w).
Proof.
  intros Hout Hdb. unfold __call__. cbn.
  fold (addresses w). rewrite Hout. cbn. rewrite Hdb. cbn.
  unfold diagnostics, set_blocked_ip_log, set_stdout. cbn.
  rewrite <- app_assoc. reflexivity.
Qed.

(** The deny branch when it does not: the insertion raises, nothing is
    written and no response is built. *)
Lemma run_deny_refused (request : HttpRequest) (w : World) :
  Py.elem (get_client_ip request) (addresses w) = false →
  GenericIPAddressField.get_db_prep_value clean_ipv6_address
    (get_client_ip request) = None →
  run clean_ipv6_address downstream (__call__ request) w =
    (Raised IntegrityError, diagnostics request w, deny_calls request w).
Proof.
  intros Hout Hdb. unfold __call__. cbn.
  fold (addresses w). rewrite Hout. cbn. rewrite Hdb. cbn.
  unfold diagnostics, set_stdout. cbn.
  rewrite <- app_assoc. reflexivity.
Qed.

(** What the deny branch does in either case. *)
Lemma run_deny_any (request : HttpRequest) (w : World) :
  Py.elem (get_client_ip request) (addresses w) = false →
  let out := run clean_ipv6_address downstream (__call__ request) w in
  calls_of out = deny_calls request w ∧
  allowed_ip (world_of out) = allowed_ip w ∧
  stdout (world_of out) = stdout (diagnostics request w).
Proof.
  intros Hout out. subst out.
  destruct (GenericIPAddressField.get_db_prep_value clean_ipv6_address
              (get_client_ip request)) as [stored|] eqn:Hdb.
  - rewrite (run_deny _ _ _ Hout Hdb). repeat split.
  - rewrite (run_deny_refused _ _ Hout Hdb). repeat split.
Qed.

(** The allow branch, in full. *)
Lemma run_allow (request : HttpRequest) (w : World) :
  Py.elem (get_client_ip request) (addresses w) = true →
  run clean_ipv6_address downstream (__call__ request) w =
    (Returned (downstream request (diagnostics request w)).1,
     (downstream request (diagnostics request w)).2,
     [event AllowedIP_objects_all;
      event (print [PStr "📌 요청한 클라이언트 IP:";
                    PValue (get_client_ip request)]);
      event (print [PStr "✅ 현재 허용된 IP 목록:"; PList (addresses w)]);
      event (get_response request)]).
Proof.
  intros Hin. unfold __call__. cbn.
  fold (addresses w). rewrite Hin. cbn.
  unfold diagnostics, set_stdout. cbn. rewrite <- app_assoc. cbn.
  fold (addresses w).
  destruct (downstream request _). reflexivity.
Qed.
End Gate.

(** ** The gate's two outcomes *)

Section Decision.
Variable clean_ipv6_address : string -> option string.
Variable downstream : Downstream.


(** C2. A request whose resolved address equals an allowlist address is
    handed to the downstream handler, whose response is returned as it is;
    the gate inserts no log row, and the handler sees both tables as they
    were. *)
Theorem gate_forwards (request : HttpRequest) (w : World) (a : string) :
  get_client_ip request = Some a →
  a ∈ addresses w →
  let out := run clean_ipv6_address downstream (__call__ request) w in
  let handed := diagnostics request w in
  result_of out = Returned (downstream request handed).1 ∧
  world_of out = (downstream request handed).2 ∧
  allowed_ip handed = allowed_ip w ∧
  blocked_ip_log handed = blocked_ip_log w ∧
  List.filter is_get_response (calls_of out) = [event (get_response request)] ∧
  existsb is_log_create (calls_of out) = false.
Proof.
  intros Hip Hin out handed. subst out handed.
  rewrite run_allow by (rewrite Hip; apply elem_Some, Hin).
  repeat split.
Qed.
End Decision.



(** A long IPv6 spelling is denied under its own name and logged under its
    normal form. *)
Example long_spelling_logged_in_normal_form :
  result_of
    (run Scenario.clean Scenario.view (__call__ Scenario.long_loopback)
       Scenario.loopback_only)
    = Returned (mkHttpResponse 403 "Access denied for IP: ::0001") ∧
  blocked_ip_log
    (world_of
       (run Scenario.clean Scenario.view (__call__ Scenario.long_loopback)
          Scenario.loopback_only))
    = [BlockedIPLog.mk "::1" "/" 0].
Proof. split; reflexivity. Qed.

(** Scenario: allowlist {127.0.0.1}, peer 127.0.0.1. *)
Lemma gate_forwards_witness :
  get_client_ip (Scenario.direct "127.0.0.1" "/admin/") = Some "127.0.0.1" ∧
  "127.0.0.1" ∈ addresses Scenario.loopback_only ∧
  (let out :=
    run Scenario.clean Scenario.view (__call__ (Scenario.direct "127.0.0.1" "/admin/"))
      Scenario.loopback_only in
  let handed :=
    diagnostics (Scenario.direct "127.0.0.1" "/admin/") Scenario.loopback_only in
  result_of out =
    Returned (Scenario.view (Scenario.direct "127.0.0.1" "/admin/") handed).1 ∧
  world_of out = (Scenario.view (Scenario.direct "127.0.0.1" "/admin/") handed).2 ∧
  allowed_ip handed = allowed_ip Scenario.loopback_only ∧
  blocked_ip_log handed = blocked_ip_log Scenario.loopback_only ∧
  List.filter is_get_response (calls_of out) =
    [event (get_response (Scenario.direct "127.0.0.1" "/admin/"))] ∧
  existsb is_log_create (calls_of out) = false).
Proof.
  assert (H1 : get_client_ip (Scenario.direct "127.0.0.1" "/admin/")
               = Some "127.0.0.1") by reflexivity.
  assert (H2 : "127.0.0.1" ∈ addresses Scenario.loopback_only)
    by (apply (bool_decide_unpack _); vm_compute; exact I).
  split; [exact H1|]. split; [exact H2|].
  exact (gate_forwards Scenario.clean Scenario.view _ _ _ H1 H2).
Defined.

(** ** The client-address resolver *)

Lemma truthy_nonempty (s : string) : s ≠ "" → Py.truthy s = true.
Proof. destruct s; [contradiction|reflexivity]. Qed.

Lemma item0_map_trim (l : list string) :
  l ≠ [] → Py.item0 (map Spec.trim l) = Spec.trim (Py.item0 l).
Proof. destruct l; [contradiction|reflexivity]. Qed.

(** With a non-empty forwarding header the resolver is [split(',')[0]]. *)
Lemma get_client_ip_forwarded (request : HttpRequest) (header : string) :
  META request !! "HTTP_X_FORWARDED_FOR" = Some header →
  header ≠ "" →
  get_client_ip request = Some (Py.item0 (Py.split "," header)).
Proof.
  intros Hhdr Hne. unfold get_client_ip.
  rewrite Hhdr, (truthy_nonempty _ Hne). reflexivity.
Qed.

(** C3, as the specification words it, fails: for the header
    "9.9.9.9 , 1.2.3.4" the resolver returns "9.9.9.9 " with its trailing
    blank, while the trimmed first entry is "9.9.9.9". *)
Lemma resolver_keeps_whitespace :
  META (Scenario.proxied "9.9.9.9 , 1.2.3.4" "5.5.5.5" "/")
    !! "HTTP_X_FORWARDED_FOR" = Some "9.9.9.9 , 1.2.3.4" ∧
  get_client_ip (Scenario.proxied "9.9.9.9 , 1.2.3.4" "5.5.5.5" "/")
    = Some "9.9.9.9 " ∧
  Spec.forwarded_client "9.9.9.9 , 1.2.3.4" = "9.9.9.9" ∧
  get_client_ip (Scenario.proxied "9.9.9.9 , 1.2.3.4" "5.5.5.5" "/")
    ≠ Some (Spec.forwarded_client "9.9.9.9 , 1.2.3.4").
Proof.
  split; [reflexivity|]. split; [reflexivity|]. split; [reflexivity|].
  vm_compute. discriminate.
Qed.

(** C3, amended. With a non-empty forwarding header the resolver returns the
    text of the header up to its first comma, exactly as it stands: that
    text holds no comma, and the header is either that text alone or that
    text, a comma and a remainder.  No white space is removed; the result is
    the specification's trimmed entry exactly when trimming leaves it as it
    is. *)
Theorem resolver_first_entry (request : HttpRequest) (header : string) :
  META request !! "HTTP_X_FORWARDED_FOR" = Some header →
  header ≠ "" →
  ∃ ip : string,
    get_client_ip request = Some ip ∧
    Py.contains "," ip = false ∧
    (header = ip ∨ ∃ rest, header = ip +:+ String "," rest) ∧
    (Spec.trim ip = ip ↔ ip = Spec.forwarded_client header).
Proof.
  intros Hhdr Hne.
  exists (Py.item0 (Py.split "," header)).
  destruct (item0_split "," header) as [Hfree Hprefix].
  split; [apply get_client_ip_forwarded; assumption|].
  split; [exact Hfree|]. split; [exact Hprefix|].
  unfold Spec.forwarded_client.
  rewrite item0_map_trim by apply split_not_nil.
  split; congruence.
Qed.

(** Resolver precedence: header "9.9.9.9, 1.2.3.4", peer 5.5.5.5. *)
Lemma resolver_first_entry_witness :
  META (Scenario.proxied "9.9.9.9, 1.2.3.4" "5.5.5.5" "/")
    !! "HTTP_X_FORWARDED_FOR" = Some "9.9.9.9, 1.2.3.4" ∧
  "9.9.9.9, 1.2.3.4" ≠ "" ∧
  ∃ ip : string,
    get_client_ip (Scenario.proxied "9.9.9.9, 1.2.3.4" "5.5.5.5" "/") = Some ip ∧
    Py.contains "," ip = false ∧
    ("9.9.9.9, 1.2.3.4" = ip ∨ ∃ rest, "9.9.9.9, 1.2.3.4" = ip +:+ String "," rest) ∧
    (Spec.trim ip = ip ↔ ip = Spec.forwarded_client "9.9.9.9, 1.2.3.4").
Proof.
  assert (H1 : META (Scenario.proxied "9.9.9.9, 1.2.3.4" "5.5.5.5" "/")
                 !! "HTTP_X_FORWARDED_FOR" = Some "9.9.9.9, 1.2.3.4")
    by reflexivity.
  assert (H2 : "9.9.9.9, 1.2.3.4" ≠ "") by discriminate.
  split; [exact H1|]. split; [exact H2|].
  exact (resolver_first_entry _ _ H1 H2).
Defined.

Example resolver_precedence :
  get_client_ip (Scenario.proxied "9.9.9.9, 1.2.3.4" "5.5.5.5" "/")
    = Some "9.9.9.9".
Proof. reflexivity. Qed.

(** C5. Without a forwarding header, or with an empty one, the resolver
    returns what [META] holds under REMOTE_ADDR, the peer address of the
    connection. *)
Theorem resolver_falls_back_to_peer (request : HttpRequest) :
  META request !! "HTTP_X_FORWARDED_FOR" = None ∨
  META request !! "HTTP_X_FORWARDED_FOR" = Some "" →
  get_client_ip request = META request !! "REMOTE_ADDR".
Proof.
  unfold get_client_ip. intros [-> | ->]; reflexivity.
Qed.

(** Resolver fallback: no forwarding header, peer 5.5.5.5. *)
Lemma resolver_falls_back_to_peer_witness :
  (META (Scenario.direct "5.5.5.5" "/") !! "HTTP_X_FORWARDED_FOR" = None ∨
   META (Scenario.direct "5.5.5.5" "/") !! "HTTP_X_FORWARDED_FOR" = Some "") ∧
  get_client_ip (Scenario.direct "5.5.5.5" "/")
    = META (Scenario.direct "5.5.5.5" "/") !! "REMOTE_ADDR" ∧
  META (Scenario.direct "5.5.5.5" "/") !! "REMOTE_ADDR" = Some "5.5.5.5".
Proof.
  assert (H : META (Scenario.direct "5.5.5.5" "/") !! "HTTP_X_FORWARDED_FOR" = None
              ∨ META (Scenario.direct "5.5.5.5" "/") !! "HTTP_X_FORWARDED_FOR"
                = Some "")
    by (left; reflexivity).
  split; [exact H|].
  split; [exact (resolver_falls_back_to_peer _ H)|reflexivity].
Defined.

Example resolver_fallback_empty_header :
  get_client_ip (Scenario.proxied "" "5.5.5.5" "/") = Some "5.5.5.5".
Proof. reflexivity. Qed.

(** ** Totality, freshness, logging and frame *)

Section Policy.
Variable clean_ipv6_address : string -> option string.
Variable downstream : Downstream.

(** Whether a request is forwarded depends on the request and on the
    addresses in the table at that moment, on nothing else. *)
Lemma forwarded_iff (request : HttpRequest) (w : World) :
  existsb is_get_response
    (calls_of (run clean_ipv6_address downstream (__call__ request) w)) =
    Py.elem (get_client_ip request) (addresses w).
Proof.
  destruct (Py.elem (get_client_ip request) (addresses w)) eqn:E.
  - rewrite run_allow by exact E. reflexivity.
  - destruct (run_deny_any clean_ipv6_address downstream _ _ E) as (-> & _).
    reflexivity.
Qed.






End Policy.

(** ** The seeding migration and the frame of a run *)

Section Seeding.
Variable clean_ipv6_address : string -> option string.
Variable downstream : Downstream.

(** The two seeded addresses are stored as they are. *)
Lemma stored_loopback :
  GenericIPAddressField.get_db_prep_value clean_ipv6_address
    (Some "127.0.0.1") = Some "127.0.0.1".
Proof. apply stored_plain; [discriminate|reflexivity]. Qed.

Lemma stored_postman :
  GenericIPAddressField.get_db_prep_value clean_ipv6_address
    (Some "10.223.112.35") = Some "10.223.112.35".
Proof. apply stored_plain; [discriminate|reflexivity]. Qed.

Lemma seeding_run_ok (w : World) :
  "127.0.0.1" ∉ addresses w →
  "10.223.112.35" ∉ addresses w →
  run clean_ipv6_address downstream add_default_ip w =
    (Returned tt,
     set_allowed_ip
       (allowed_ip w ++
          [AllowedIP.mk "127.0.0.1" "localhost default access";
           AllowedIP.mk "10.223.112.35" "Postman test"]) w,
     [event (AllowedIP_objects_create "127.0.0.1" "localhost default access");
      event (AllowedIP_objects_create "10.223.112.35" "Postman test")]).
Proof.
  intros Hlo Hpm. unfold add_default_ip, call. cbn.
  rewrite stored_loopback, (bool_decide_eq_false_2 _ Hlo). cbn.
  rewrite stored_postman, map_app. cbn.
  rewrite bool_decide_eq_false_2.
  - cbn. unfold set_allowed_ip. cbn. rewrite <- app_assoc. reflexivity.
  - intros [Hin|Hin]%elem_of_app; [exact (Hpm Hin)|].
    apply list_elem_of_singleton in Hin. discriminate.
Qed.

Lemma seeding_run_first_taken (w : World) :
  "127.0.0.1" ∈ addresses w →
  run clean_ipv6_address downstream add_default_ip w =
    (Raised IntegrityError, w,
     [event (AllowedIP_objects_create "127.0.0.1" "localhost default access")]).
Proof.
  intros Hlo. unfold add_default_ip, call. cbn.
  rewrite stored_loopback, (bool_decide_eq_true_2 _ Hlo). reflexivity.
Qed.

(** The function on its own: a runner that wraps it in a transaction undoes
    the first insertion when the second raises. *)
Lemma seeding_run_second_taken (w : World) :
  "127.0.0.1" ∉ addresses w →
  "10.223.112.35" ∈ addresses w →
  run clean_ipv6_address downstream add_default_ip w =
    (Raised IntegrityError,
     set_allowed_ip
       (allowed_ip w ++ [AllowedIP.mk "127.0.0.1" "localhost default access"]) w,
     [event (AllowedIP_objects_create "127.0.0.1" "localhost default access");
      event (AllowedIP_objects_create "10.223.112.35" "Postman test")]).
Proof.
  intros Hlo Hpm. unfold add_default_ip, call. cbn.
  rewrite stored_loopback, (bool_decide_eq_false_2 _ Hlo). cbn.
  rewrite stored_postman, map_app. cbn.
  rewrite bool_decide_eq_true_2; [reflexivity|].
  apply elem_of_app. left. exact Hpm.
Qed.

(** C8. On the empty allowlist table left by the schema migration, the
    seeding step succeeds and 127.0.0.1 is in the table afterwards. *)
Theorem seeding_adds_loopback
    (log : list BlockedIPLog.t) (printed : list (list PrintArg)) (t : Z) :
  let seeded := run clean_ipv6_address downstream add_default_ip (mkWorld [] log printed t) in
  result_of seeded = Returned tt ∧
  "127.0.0.1" ∈ addresses (world_of seeded).
Proof.
  intros seeded. subst seeded.
  rewrite seeding_run_ok by (cbn; apply not_elem_of_nil).
  split; [reflexivity|]. apply list_elem_of_here.
Qed.

(** C9. On a table holding neither address, such as the empty one of a
    first deployment, the seeding step appends exactly two rows: 127.0.0.1
    and then 10.223.112.35 with description "Postman test".  The log table
    is left alone, and a request resolving to 10.223.112.35 is forwarded
    from then on. *)
Theorem seeding_adds_two_entries (request : HttpRequest) (w : World) :
  "127.0.0.1" ∉ addresses w →
  "10.223.112.35" ∉ addresses w →
  get_client_ip request = Some "10.223.112.35" →
  let seeded := run clean_ipv6_address downstream add_default_ip w in
  let out := run clean_ipv6_address downstream (__call__ request) (world_of seeded) in
  result_of seeded = Returned tt ∧
  allowed_ip (world_of seeded) =
    allowed_ip w ++
      [AllowedIP.mk "127.0.0.1" "localhost default access";
       AllowedIP.mk "10.223.112.35" "Postman test"] ∧
  blocked_ip_log (world_of seeded) = blocked_ip_log w ∧
  result_of out =
    Returned (downstream request (diagnostics request (world_of seeded))).1 ∧
  existsb is_get_response (calls_of out) = true.
Proof.
  intros Hlo Hpm Hip seeded out.
  assert (Hrun := seeding_run_ok w Hlo Hpm). fold seeded in Hrun.
  assert (Hin : Py.elem (get_client_ip request) (addresses (world_of seeded))
                = true).
  { rewrite Hip, Hrun. apply elem_Some. unfold addresses. cbn.
    rewrite map_app. apply elem_of_app. right. cbn.
    apply list_elem_of_further, list_elem_of_here. }
  subst out. rewrite run_allow by exact Hin.
  rewrite Hrun. repeat split.
Qed.
End Seeding.

Section Frame.
Variable clean_ipv6_address : string -> option string.
Variable downstream : Downstream.

(** With a handler that leaves the tables alone, so does the run as a
    whole, up to the row of the deny branch. *)
Lemma quiet_handler_frame (request : HttpRequest) (w : World) :
  (∀ w', allowed_ip (downstream request w').2 = allowed_ip w' ∧
         blocked_ip_log (downstream request w').2 = blocked_ip_log w') →
  let out := run clean_ipv6_address downstream (__call__ request) w in
  allowed_ip (world_of out) = allowed_ip w ∧
  (Py.elem (get_client_ip request) (addresses w) = true →
   blocked_ip_log (world_of out) = blocked_ip_log w).
Proof.
  intros Hquiet out. subst out.
  destruct (Py.elem (get_client_ip request) (addresses w)) eqn:E.
  - rewrite run_allow by exact E.
    destruct (Hquiet (diagnostics request w)) as [Ha Hb].
    split; [exact Ha|]. intros _. exact Hb.
  - destruct (run_deny_any clean_ipv6_address downstream _ _ E)
      as (_ & Ha & _).
    split; [exact Ha|discriminate].
Qed.

(** C10. A run of [__call__] performs no write to the allowlist table.  On
    the allow branch the downstream handler receives both tables as they
    were and the final world is the one the handler leaves; on the deny
    branch the allowlist table is as before and the log table has either
    gained one row, the only change to the tables, or, when the insertion
    raises, stayed as it was.  Hence, whenever the handler itself leaves the
    tables alone, the allowlist table is the same before and after the run,
    and so is the log table of an allowed request. *)
Theorem gate_frame (request : HttpRequest) (w : World) :
  let out := run clean_ipv6_address downstream (__call__ request) w in
  let handed := diagnostics request w in
  existsb is_allowlist_write (calls_of out) = false ∧
  allowed_ip handed = allowed_ip w ∧
  blocked_ip_log handed = blocked_ip_log w ∧
  ((Py.elem (get_client_ip request) (addresses w) = true ∧
    world_of out = (downstream request handed).2 ∧
    existsb is_log_create (calls_of out) = false)
   ∨
   (Py.elem (get_client_ip request) (addresses w) = false ∧
    allowed_ip (world_of out) = allowed_ip w ∧
    ((∃ stored,
        GenericIPAddressField.get_db_prep_value clean_ipv6_address
          (get_client_ip request) = Some stored ∧
        world_of out =
          set_blocked_ip_log
            (blocked_ip_log w ++ [denied_row stored request w]) handed ∧
        blocked_ip_log (world_of out) =
          blocked_ip_log w ++ [denied_row stored request w])
     ∨
     (GenericIPAddressField.get_db_prep_value clean_ipv6_address
        (get_client_ip request) = None ∧
      world_of out = handed ∧
      blocked_ip_log (world_of out) = blocked_ip_log w)))) ∧
  ((∀ w', allowed_ip (downstream request w').2 = allowed_ip w' ∧
          blocked_ip_log (downstream request w').2 = blocked_ip_log w') →
   allowed_ip (world_of out) = allowed_ip w ∧
   (Py.elem (get_client_ip request) (addresses w) = true →
    blocked_ip_log (world_of out) = blocked_ip_log w)).
Proof.
  intros out handed.
  refine (conj _ (conj _ (conj _ (conj _ (quiet_handler_frame request w)))));
    try reflexivity; subst out handed;
    destruct (Py.elem (get_client_ip request) (addresses w)) eqn:E.
  - rewrite run_allow by exact E. reflexivity.
  - destruct (run_deny_any clean_ipv6_address downstream _ _ E) as (-> & _).
    reflexivity.
  - rewrite run_allow by exact E. left. repeat split.
  - right. split; [reflexivity|].
    destruct (GenericIPAddressField.get_db_prep_value clean_ipv6_address
                (get_client_ip request)) as [stored|] eqn:Hdb.
    + rewrite (run_deny _ _ _ _ _ E Hdb).
      split; [reflexivity|]. left. exists stored. repeat split.
    + rewrite (run_deny_refused _ _ _ _ E Hdb).
      split; [reflexivity|]. right. repeat split.
Qed.
End Frame.

(** ** The theorems above at concrete inputs *)





(** Nor does it hold for a long IPv6 spelling: the row is stored in normal
    form, and the request, compared as it was spelled, is turned away. *)
Example long_spelling_added_but_denied :
  addresses
    (world_of
       (run Scenario.clean Scenario.view
          (call (AllowedIP_objects_create "2001:0DB8:0:0:0:0:0:1" "lab"))
          Scenario.loopback_only))
    = ["127.0.0.1"; "2001:db8::1"] ∧
  result_of
    (run Scenario.clean Scenario.view (__call__ Scenario.long_documentation)
       (world_of
          (run Scenario.clean Scenario.view
             (call (AllowedIP_objects_create "2001:0DB8:0:0:0:0:0:1" "lab"))
             Scenario.loopback_only)))
    = Returned
        (mkHttpResponse 403 "Access denied for IP: 2001:0DB8:0:0:0:0:0:1").
Proof. split; reflexivity. Qed.



Example malformed_address_denied :
  result_of
    (run Scenario.clean Scenario.view
       (__call__ (Scenario.direct "not-an-ip" "/")) Scenario.loopback_only)
  = Returned (mkHttpResponse 403 "Access denied for IP: not-an-ip").
Proof. reflexivity. Qed.

(** First deployment: the seeding step on the fresh tables, then a request
    from 10.223.112.35. *)
Lemma seeding_adds_two_entries_witness :
  ("127.0.0.1" ∉ addresses Scenario.fresh) ∧
  ("10.223.112.35" ∉ addresses Scenario.fresh) ∧
  get_client_ip Scenario.postman = Some "10.223.112.35" ∧
  (let seeded := run Scenario.clean Scenario.view add_default_ip Scenario.fresh in
   let out := run Scenario.clean Scenario.view (__call__ Scenario.postman) (world_of seeded) in
   result_of seeded = Returned tt ∧
   allowed_ip (world_of seeded) =
     allowed_ip Scenario.fresh ++
       [AllowedIP.mk "127.0.0.1" "localhost default access";
        AllowedIP.mk "10.223.112.35" "Postman test"] ∧
   blocked_ip_log (world_of seeded) = blocked_ip_log Scenario.fresh ∧
   result_of out =
     Returned (Scenario.view Scenario.postman
                 (diagnostics Scenario.postman (world_of seeded))).1 ∧
   existsb is_get_response (calls_of out) = true).
Proof.
  assert (H1 : "127.0.0.1" ∉ addresses Scenario.fresh)
    by (apply (bool_decide_unpack _); vm_compute; exact I).
  assert (H2 : "10.223.112.35" ∉ addresses Scenario.fresh)
    by (apply (bool_decide_unpack _); vm_compute; exact I).
  assert (H3 : get_client_ip Scenario.postman = Some "10.223.112.35")
    by reflexivity.
  split; [exact H1|]. split; [exact H2|]. split; [exact H3|].
  exact (seeding_adds_two_entries Scenario.clean Scenario.view _ _ H1 H2 H3).
Defined.

(** The seeding step refuses to run twice: the second run raises on the
    duplicate address and adds nothing. *)
Example seeding_twice_raises :
  let once := world_of (run Scenario.clean Scenario.view add_default_ip Scenario.fresh) in
  result_of (run Scenario.clean Scenario.view add_default_ip once) = Raised IntegrityError ∧
  world_of (run Scenario.clean Scenario.view add_default_ip once) = once.
Proof. split; reflexivity. Qed.

(** An allowed request through a handler that only prints: both tables are
    the same before and after. *)
Lemma gate_frame_witness :
  (∀ w', allowed_ip (Scenario.view Scenario.local w').2 = allowed_ip w' ∧
         blocked_ip_log (Scenario.view Scenario.local w').2 = blocked_ip_log w') ∧
  (let out :=
     run Scenario.clean Scenario.view (__call__ Scenario.local) Scenario.loopback_only in
   allowed_ip (world_of out) = allowed_ip Scenario.loopback_only ∧
   (Py.elem (get_client_ip Scenario.local) (addresses Scenario.loopback_only)
      = true →
    blocked_ip_log (world_of out) = blocked_ip_log Scenario.loopback_only)).
Proof.
  assert (H : ∀ w', allowed_ip (Scenario.view Scenario.local w').2 = allowed_ip w' ∧
                    blocked_ip_log (Scenario.view Scenario.local w').2
                      = blocked_ip_log w')
    by (intros w'; split; reflexivity).
  split; [exact H|].
  exact (proj2 (proj2 (proj2 (proj2
           (gate_frame Scenario.clean Scenario.view Scenario.local Scenario.loopback_only))))
           H).
Defined.

(** * Further properties of the code *)

(** ** What the forwarding header can do *)

Lemma item0_split_prefix (sep : ascii) (a rest : string) :
  Py.contains sep a = false →
  Py.item0 (Py.split sep (a +:+ String sep rest)) = a.
Proof.
  induction a as [|c a IH]; intros Hfree.
  - change ("" +:+ String sep rest) with (String sep rest).
    rewrite split_cons. destruct (decide (sep = sep)); [reflexivity|congruence].
  - change (String c a +:+ String sep rest)
      with (String c (a +:+ String sep rest)).
    simpl in Hfree. rewrite split_cons.
    destruct (decide (c = sep)); [discriminate|].
    simpl. rewrite (IH Hfree). reflexivity.
Qed.

Section Header.
Variable clean_ipv6_address : string -> option string.
Variable downstream : Downstream.

(** X1. The forwarding header is believed as it stands: a request whose
    header is an allowlisted address [a], alone or followed by a comma and
    anything else, is forwarded whatever the peer address of the connection
    is, and leaves no row in the log. *)
Theorem forwarded_header_is_trusted
    (request : HttpRequest) (w : World) (a header : string) :
  a ∈ addresses w →
  a ≠ "" →
  Py.contains "," a = false →
  header = a ∨ (∃ rest, header = a +:+ String "," rest) →
  META request !! "HTTP_X_FORWARDED_FOR" = Some header →
  let out := run clean_ipv6_address downstream (__call__ request) w in
  get_client_ip request = Some a ∧
  result_of out = Returned (downstream request (diagnostics request w)).1 ∧
  existsb is_get_response (calls_of out) = true ∧
  existsb is_log_create (calls_of out) = false.
Proof.
  intros Hin Hne Hfree Hform Hhdr out.
  assert (Hhne : header ≠ "").
  { destruct Hform as [->|[rest ->]]; [exact Hne|].
    destruct a; [contradiction|discriminate]. }
  assert (Hip : get_client_ip request = Some a).
  { rewrite (get_client_ip_forwarded _ _ Hhdr Hhne). f_equal.
    destruct Hform as [->|[rest ->]].
    - rewrite (split_no_sep _ _ Hfree). reflexivity.
    - apply item0_split_prefix, Hfree. }
  split; [exact Hip|]. subst out.
  rewrite run_allow by (rewrite Hip; apply elem_Some, Hin).
  repeat split.
Qed.

(** X2. Of a denied request with a non-empty forwarding header, the peer
    address leaves no trace: two such requests with the same header and the
    same path give the same response, the same final world and the same
    calls, whatever else their [META] hold. *)
Theorem denied_peer_leaves_no_trace
    (r1 r2 : HttpRequest) (w : World) (header : string) :
  header ≠ "" →
  META r1 !! "HTTP_X_FORWARDED_FOR" = Some header →
  META r2 !! "HTTP_X_FORWARDED_FOR" = Some header →
  path r1 = path r2 →
  Py.elem (get_client_ip r1) (addresses w) = false →
  run clean_ipv6_address downstream (__call__ r1) w = run clean_ipv6_address downstream (__call__ r2) w.
Proof.
  intros Hne H1 H2 Hpath Hout.
  assert (Hsame : get_client_ip r2 = get_client_ip r1).
  { rewrite (get_client_ip_forwarded _ _ H1 Hne).
    apply get_client_ip_forwarded; assumption. }
  assert (Hout2 : Py.elem (get_client_ip r2) (addresses w) = false)
    by (rewrite Hsame; exact Hout).
  destruct (GenericIPAddressField.get_db_prep_value clean_ipv6_address
              (get_client_ip r1)) as [stored|] eqn:Hdb.
  - rewrite (run_deny _ _ r1 w stored Hout Hdb).
    rewrite (run_deny _ _ r2 w stored Hout2) by (rewrite Hsame; exact Hdb).
    unfold denied_row, diagnostics, deny_calls. rewrite Hsame, Hpath.
    reflexivity.
  - rewrite (run_deny_refused _ _ r1 w Hout Hdb).
    rewrite (run_deny_refused _ _ r2 w Hout2) by (rewrite Hsame; exact Hdb).
    unfold diagnostics, deny_calls. rewrite Hsame, Hpath. reflexivity.
Qed.

(** X3. A forwarding header that begins with a comma resolves to the empty
    string, the peer address notwithstanding; unless the allowlist holds the
    empty string the request is not forwarded, and the one log row the run
    asks for carries an empty address. *)
Theorem leading_comma_resolves_empty
    (request : HttpRequest) (w : World) (rest : string) :
  META request !! "HTTP_X_FORWARDED_FOR" = Some (String "," rest) →
  "" ∉ addresses w →
  let out := run clean_ipv6_address downstream (__call__ request) w in
  get_client_ip request = Some "" ∧
  existsb is_get_response (calls_of out) = false ∧
  List.filter is_log_create (calls_of out) =
    [event (BlockedIPLog_objects_create (Some "") (path request))].
Proof.
  intros Hhdr Hout out.
  assert (Hip : get_client_ip request = Some "").
  { rewrite (get_client_ip_forwarded _ _ Hhdr) by discriminate.
    rewrite split_cons. destruct (decide ("," = ","))%char; [reflexivity|congruence]. }
  split; [exact Hip|]. subst out.
  assert (E : Py.elem (get_client_ip request) (addresses w) = false)
    by (rewrite Hip; apply not_elem_Some, Hout).
  destruct (run_deny_any clean_ipv6_address downstream _ _ E) as (-> & _).
  unfold deny_calls. rewrite Hip. split; reflexivity.
Qed.

(** X4. A request with no forwarding header (or an empty one) and no
    REMOTE_ADDR resolves to [None]; whatever the allowlist holds it is never
    forwarded: the run takes the deny branch and asks for a log row with
    address [None]. *)
Theorem unresolved_never_forwarded (request : HttpRequest) (w : World) :
  META request !! "HTTP_X_FORWARDED_FOR" = None ∨
  META request !! "HTTP_X_FORWARDED_FOR" = Some "" →
  META request !! "REMOTE_ADDR" = None →
  let out := run clean_ipv6_address downstream (__call__ request) w in
  get_client_ip request = None ∧
  existsb is_get_response (calls_of out) = false ∧
  List.filter is_log_create (calls_of out) =
    [event (BlockedIPLog_objects_create None (path request))].
Proof.
  intros Hhdr Hpeer out.
  assert (Hip : get_client_ip request = None).
  { unfold get_client_ip. destruct Hhdr as [-> | ->]; exact Hpeer. }
  split; [exact Hip|]. subst out.
  assert (E : Py.elem (get_client_ip request) (addresses w) = false)
    by (rewrite Hip; reflexivity).
  destruct (run_deny_any clean_ipv6_address downstream _ _ E) as (-> & _).
  unfold deny_calls. rewrite Hip. split; reflexivity.
Qed.
End Header.

(** ** Requests in sequence *)

Section Sequence.
Variable clean_ipv6_address : string -> option string.
Variable downstream : Downstream.

Lemma elem_mono (v : option string) (l1 l2 : list string) :
  (∀ x, x ∈ l1 → x ∈ l2) → Py.elem v l1 = true → Py.elem v l2 = true.
Proof.
  intros Hsub. destruct v as [s|]; [|discriminate].
  rewrite !elem_Some. apply Hsub.
Qed.

(** X5. Growing the allowlist never turns a forwarded request into a denied
    one: a request forwarded in one world is forwarded in every world whose
    table holds at least the same addresses. *)
Theorem allowlist_monotone (request : HttpRequest) (wa wb : World) :
  (∀ x, x ∈ addresses wa → x ∈ addresses wb) →
  existsb is_get_response
    (calls_of (run clean_ipv6_address downstream (__call__ request) wa)) = true →
  existsb is_get_response
    (calls_of (run clean_ipv6_address downstream (__call__ request) wb)) = true.
Proof.
  intros Hsub. rewrite !forwarded_iff. apply elem_mono, Hsub.
Qed.

(** The tables after one run, with a handler that leaves them alone. *)
Lemma step_tables (request : HttpRequest) (w : World) :
  (∀ r w', allowed_ip (downstream r w').2 = allowed_ip w' ∧
           blocked_ip_log (downstream r w').2 = blocked_ip_log w') →
  let w1 :=
    world_of (run clean_ipv6_address downstream (__call__ request) w) in
  allowed_ip w1 = allowed_ip w ∧
  map log_entry (blocked_ip_log w1) =
    map log_entry (blocked_ip_log w) ++
      match logged clean_ipv6_address w request with
      | Some entry => [entry]
      | None => []
      end.
Proof.
  intros Hquiet w1. subst w1. unfold logged, turned_away.
  destruct (Py.elem (get_client_ip request) (addresses w)) eqn:E; cbn [negb].
  - rewrite run_allow by exact E.
    destruct (Hquiet request (diagnostics request w)) as [Ha Hb].
    split; [exact Ha|]. rewrite app_nil_r. cbn. rewrite Hb. reflexivity.
  - destruct (GenericIPAddressField.get_db_prep_value clean_ipv6_address
                (get_client_ip request)) as [stored|] eqn:Hdb.
    + rewrite (run_deny _ _ _ _ _ E Hdb). split; [reflexivity|].
      cbn. rewrite map_app. reflexivity.
    + rewrite (run_deny_refused _ _ _ _ E Hdb). split; [reflexivity|].
      rewrite app_nil_r. reflexivity.
Qed.

(** X6. With a handler that leaves the tables alone, serving any list of
    requests leaves the allowlist table as it was and adds to the log, in
    the order of arrival, one row for each request that the allowlist turns
    away and whose address the log's field takes, holding that address as
    stored and the path; a request that is forwarded, or whose insertion
    raises, adds nothing. *)
Theorem serve_logs_denied_in_order (requests : list HttpRequest) (w : World) :
  (∀ r w', allowed_ip (downstream r w').2 = allowed_ip w' ∧
           blocked_ip_log (downstream r w').2 = blocked_ip_log w') →
  allowed_ip (serve clean_ipv6_address downstream requests w) = allowed_ip w ∧
  map log_entry
    (blocked_ip_log (serve clean_ipv6_address downstream requests w)) =
    map log_entry (blocked_ip_log w) ++
      omap (logged clean_ipv6_address w) requests.
Proof.
  intros Hquiet. revert w.
  induction requests as [|request rest IH]; intros w.
  - cbn. rewrite app_nil_r. split; reflexivity.
  - cbn [serve omap list_omap].
    destruct (step_tables request w Hquiet) as [Ha Hb].
    destruct (IH (world_of
                    (run clean_ipv6_address downstream (__call__ request) w)))
      as [IHa IHb].
    split; [rewrite IHa; exact Ha|].
    rewrite IHb, Hb.
    assert (Hsame : logged clean_ipv6_address
                      (world_of
                         (run clean_ipv6_address downstream
                            (__call__ request) w))
                    = logged clean_ipv6_address w).
    { unfold logged, turned_away, addresses. rewrite Ha. reflexivity. }
    rewrite Hsame.
    destruct (logged clean_ipv6_address w request).
    + rewrite <- app_assoc. reflexivity.
    + rewrite app_nil_r. reflexivity.
Qed.

(** X7. With a handler that prints nothing, every request served, allowed
    or denied, leaves exactly two lines on the standard output. *)
Theorem serve_prints_two_lines (requests : list HttpRequest) (w : World) :
  (∀ r w', stdout (downstream r w').2 = stdout w') →
  length (stdout (serve clean_ipv6_address downstream requests w)) =
    length (stdout w) + 2 * length requests.
Proof.
  intros Hmute. revert w.
  induction requests as [|request rest IH]; intros w.
  - cbn. lia.
  - cbn [serve length]. rewrite IH.
    assert (Hstep : length (stdout (world_of
                      (run clean_ipv6_address downstream (__call__ request) w)))
                    = length (stdout w) + 2).
    { destruct (Py.elem (get_client_ip request) (addresses w)) eqn:E.
      - rewrite run_allow by exact E. cbn.
        rewrite Hmute. cbn. rewrite length_app. reflexivity.
      - destruct (run_deny_any clean_ipv6_address downstream _ _ E)
          as (_ & _ & ->).
        cbn. rewrite length_app. reflexivity. }
    rewrite Hstep. lia.
Qed.
End Sequence.

(** ** The seeding step, outside a first deployment *)

Section Reseeding.
Variable clean_ipv6_address : string -> option string.
Variable downstream : Downstream.

(** X8. The seeding step returns normally exactly when the table holds
    neither of its two addresses; if either is there it raises
    [IntegrityError].  When 127.0.0.1 is already there it raises at its
    first insertion: the second is not attempted and the world is left as it
    was. *)
Theorem seeding_outcome (w : World) :
  let out := run clean_ipv6_address downstream add_default_ip w in
  (result_of out = Returned tt ↔
     ("127.0.0.1" ∉ addresses w) ∧ ("10.223.112.35" ∉ addresses w)) ∧
  (result_of out = Raised IntegrityError ↔
     "127.0.0.1" ∈ addresses w ∨ "10.223.112.35" ∈ addresses w) ∧
  ("127.0.0.1" ∈ addresses w →
     world_of out = w ∧
     calls_of out =
       [event (AllowedIP_objects_create
                 "127.0.0.1" "localhost default access")]).
Proof.
  intros out. subst out.
  destruct (decide ("127.0.0.1" ∈ addresses w)) as [Hlo|Hlo].
  - rewrite seeding_run_first_taken by exact Hlo. cbn.
    split; [|split].
    + split; [discriminate|]. intros [Hno _]. contradiction.
    + split; [intros _; left; exact Hlo|reflexivity].
    + intros _. split; reflexivity.
  - destruct (decide ("10.223.112.35" ∈ addresses w)) as [Hpm|Hpm].
    + rewrite seeding_run_second_taken by assumption. cbn.
      split; [|split].
      * split; [discriminate|]. intros [_ Hno]. contradiction.
      * split; [intros _; right; exact Hpm|reflexivity].
      * intros Hin. contradiction.
    + rewrite seeding_run_ok by assumption. cbn.
      split; [|split].
      * split; [intros _; split; assumption|reflexivity].
      * split; [discriminate|]. intros [Hin|Hin]; contradiction.
      * intros Hin. contradiction.
Qed.

(** X9. The seeding step cannot be run twice: after a run that returned
    normally, a second run raises [IntegrityError] at its first insertion
    and leaves the world as the first run left it. *)
Theorem seeding_not_rerunnable (w : World) :
  result_of (run clean_ipv6_address downstream add_default_ip w) = Returned tt →
  let once := world_of (run clean_ipv6_address downstream add_default_ip w) in
  result_of (run clean_ipv6_address downstream add_default_ip once) = Raised IntegrityError ∧
  world_of (run clean_ipv6_address downstream add_default_ip once) = once ∧
  length (calls_of (run clean_ipv6_address downstream add_default_ip once)) = 1.
Proof.
  intros Hok once.
  assert (Hin : "127.0.0.1" ∈ addresses once).
  { subst once.
    destruct (decide ("127.0.0.1" ∈ addresses w)) as [Hlo|Hlo].
    - rewrite seeding_run_first_taken in Hok by exact Hlo. discriminate.
    - destruct (decide ("10.223.112.35" ∈ addresses w)) as [Hpm|Hpm].
      + rewrite seeding_run_second_taken in Hok by assumption. discriminate.
      + rewrite seeding_run_ok by assumption.
        unfold addresses. cbn. rewrite map_app. cbn.
        apply elem_of_app. right. apply list_elem_of_here. }
  rewrite seeding_run_first_taken by exact Hin. repeat split.
Qed.

End Reseeding.

(** ** [AllowedIP.__str__] *)

Lemma append_dash_inj (a b d1 d2 : string) :
  Py.contains " " a = false →
  Py.contains " " b = false →
  a +:+ " - " +:+ d1 = b +:+ " - " +:+ d2 →
  a = b ∧ d1 = d2.
Proof.
  revert b. induction a as [|c a IH]; intros [|c' b] Ha Hb Heq.
  - injection Heq as Heq. split; [reflexivity|exact Heq].
  - exfalso. injection Heq as Hc _. subst c'. simpl in Hb. discriminate.
  - exfalso. injection Heq as Hc _. subst c. simpl in Ha. discriminate.
  - injection Heq as Hc Heq. subst c'.
    simpl in Ha, Hb. destruct (decide (c = " "%char)); [discriminate|].
    destruct (IH b Ha Hb Heq) as [-> ->]. split; reflexivity.
Qed.

(** X11. [__str__] tells rows apart as long as their addresses hold no
    blank, which no IP literal does: two such rows with the same text are
    the same row. *)
Theorem str_tells_rows_apart (r1 r2 : AllowedIP.t) :
  Py.contains " " (AllowedIP.ip_address r1) = false →
  Py.contains " " (AllowedIP.ip_address r2) = false →
  AllowedIP.__str__ r1 = AllowedIP.__str__ r2 →
  r1 = r2.
Proof.
  destruct r1 as [a d1], r2 as [b d2]. unfold AllowedIP.__str__. cbn.
  intros Ha Hb Heq.
  destruct (append_dash_inj a b d1 d2 Ha Hb Heq) as [-> ->]. reflexivity.
Qed.

(** Without that, two different rows can read the same. *)
Example str_can_collide :
  AllowedIP.__str__ (AllowedIP.mk "a" "b - c")
    = AllowedIP.__str__ (AllowedIP.mk "a - b" "c") ∧
  AllowedIP.mk "a" "b - c" ≠ AllowedIP.mk "a - b" "c".
Proof. split; [reflexivity|discriminate]. Qed.

(** ** The further properties at concrete inputs *)

(** A stranger at 8.8.8.8 who names 127.0.0.1 in the header goes through. *)
Lemma forwarded_header_is_trusted_witness :
  "127.0.0.1" ∈ addresses Scenario.loopback_only ∧
  "127.0.0.1" ≠ "" ∧
  Py.contains "," "127.0.0.1" = false ∧
  ("127.0.0.1, 10.0.0.1" = "127.0.0.1" ∨
   ∃ rest, "127.0.0.1, 10.0.0.1" = "127.0.0.1" +:+ String "," rest) ∧
  META (Scenario.proxied "127.0.0.1, 10.0.0.1" "8.8.8.8" "/admin/")
    !! "HTTP_X_FORWARDED_FOR" = Some "127.0.0.1, 10.0.0.1" ∧
  (let request := Scenario.proxied "127.0.0.1, 10.0.0.1" "8.8.8.8" "/admin/" in
   let out := run Scenario.clean Scenario.view (__call__ request) Scenario.loopback_only in
   get_client_ip request = Some "127.0.0.1" ∧
   result_of out =
     Returned (Scenario.view request
                 (diagnostics request Scenario.loopback_only)).1 ∧
   existsb is_get_response (calls_of out) = true ∧
   existsb is_log_create (calls_of out) = false).
Proof.
  assert (H1 : "127.0.0.1" ∈ addresses Scenario.loopback_only)
    by (apply (bool_decide_unpack _); vm_compute; exact I).
  assert (H2 : "127.0.0.1" ≠ "") by discriminate.
  assert (H3 : Py.contains "," "127.0.0.1" = false) by reflexivity.
  assert (H4 : "127.0.0.1, 10.0.0.1" = "127.0.0.1" ∨
               ∃ rest, "127.0.0.1, 10.0.0.1" = "127.0.0.1" +:+ String "," rest)
    by (right; exists " 10.0.0.1"; reflexivity).
  assert (H5 : META (Scenario.proxied "127.0.0.1, 10.0.0.1" "8.8.8.8" "/admin/")
                 !! "HTTP_X_FORWARDED_FOR" = Some "127.0.0.1, 10.0.0.1")
    by reflexivity.
  repeat (split; [assumption|]).
  exact (forwarded_header_is_trusted Scenario.clean Scenario.view _ _ _ _ H1 H2 H3 H4 H5).
Defined.

(** The header "6.6.6.6, 10.0.0.1" over two different connections. *)
Lemma denied_peer_leaves_no_trace_witness :
  "6.6.6.6, 10.0.0.1" ≠ "" ∧
  META Scenario.claimed_a !! "HTTP_X_FORWARDED_FOR" = Some "6.6.6.6, 10.0.0.1" ∧
  META Scenario.claimed_b !! "HTTP_X_FORWARDED_FOR" = Some "6.6.6.6, 10.0.0.1" ∧
  path Scenario.claimed_a = path Scenario.claimed_b ∧
  Py.elem (get_client_ip Scenario.claimed_a) (addresses Scenario.loopback_only)
    = false ∧
  run Scenario.clean Scenario.view (__call__ Scenario.claimed_a) Scenario.loopback_only =
  run Scenario.clean Scenario.view (__call__ Scenario.claimed_b) Scenario.loopback_only.
Proof.
  assert (H1 : "6.6.6.6, 10.0.0.1" ≠ "") by discriminate.
  assert (H2 : META Scenario.claimed_a !! "HTTP_X_FORWARDED_FOR"
               = Some "6.6.6.6, 10.0.0.1") by reflexivity.
  assert (H3 : META Scenario.claimed_b !! "HTTP_X_FORWARDED_FOR"
               = Some "6.6.6.6, 10.0.0.1") by reflexivity.
  assert (H4 : path Scenario.claimed_a = path Scenario.claimed_b)
    by reflexivity.
  assert (H5 : Py.elem (get_client_ip Scenario.claimed_a)
                 (addresses Scenario.loopback_only) = false) by reflexivity.
  repeat (split; [assumption|]).
  exact (denied_peer_leaves_no_trace Scenario.clean Scenario.view _ _ _ _ H1 H2 H3 H4 H5).
Defined.

(** The header ",1.2.3.4" from 5.5.5.5. *)
Lemma leading_comma_resolves_empty_witness :
  META (Scenario.proxied ",1.2.3.4" "5.5.5.5" "/")
    !! "HTTP_X_FORWARDED_FOR" = Some (String "," "1.2.3.4") ∧
  ("" ∉ addresses Scenario.loopback_only) ∧
  (let request := Scenario.proxied ",1.2.3.4" "5.5.5.5" "/" in
   let out := run Scenario.clean Scenario.view (__call__ request) Scenario.loopback_only in
   get_client_ip request = Some "" ∧
   existsb is_get_response (calls_of out) = false ∧
   List.filter is_log_create (calls_of out) =
     [event (BlockedIPLog_objects_create (Some "") (path request))]).
Proof.
  assert (H1 : META (Scenario.proxied ",1.2.3.4" "5.5.5.5" "/")
                 !! "HTTP_X_FORWARDED_FOR" = Some (String "," "1.2.3.4"))
    by reflexivity.
  assert (H2 : "" ∉ addresses Scenario.loopback_only)
    by (apply (bool_decide_unpack _); vm_compute; exact I).
  repeat (split; [assumption|]).
  exact (leading_comma_resolves_empty Scenario.clean Scenario.view _ _ _ H1 H2).
Defined.

(** A request with an empty [META], against the seeded allowlist. *)
Lemma unresolved_never_forwarded_witness :
  (META Scenario.anonymous !! "HTTP_X_FORWARDED_FOR" = None ∨
   META Scenario.anonymous !! "HTTP_X_FORWARDED_FOR" = Some "") ∧
  META Scenario.anonymous !! "REMOTE_ADDR" = None ∧
  (let out :=
     run Scenario.clean Scenario.view (__call__ Scenario.anonymous) Scenario.loopback_only in
   get_client_ip Scenario.anonymous = None ∧
   existsb is_get_response (calls_of out) = false ∧
   List.filter is_log_create (calls_of out) =
     [event (BlockedIPLog_objects_create None (path Scenario.anonymous))]).
Proof.
  assert (H1 : META Scenario.anonymous !! "HTTP_X_FORWARDED_FOR" = None ∨
               META Scenario.anonymous !! "HTTP_X_FORWARDED_FOR" = Some "")
    by (left; reflexivity).
  assert (H2 : META Scenario.anonymous !! "REMOTE_ADDR" = None) by reflexivity.
  split; [exact H1|]. split; [exact H2|].
  exact (unresolved_never_forwarded Scenario.clean Scenario.view _ Scenario.loopback_only H1 H2).
Defined.

(** The loopback request stays allowed once 8.8.8.8 joins the allowlist. *)
Lemma allowlist_monotone_witness :
  (∀ x, x ∈ addresses Scenario.loopback_only →
        x ∈ addresses
              (set_allowed_ip
                 (allowed_ip Scenario.loopback_only ++
                    [AllowedIP.mk "8.8.8.8" "office"])
                 Scenario.loopback_only)) ∧
  existsb is_get_response
    (calls_of (run Scenario.clean Scenario.view (__call__ Scenario.local)
                 Scenario.loopback_only)) = true ∧
  existsb is_get_response
    (calls_of (run Scenario.clean Scenario.view (__call__ Scenario.local)
                 (set_allowed_ip
                    (allowed_ip Scenario.loopback_only ++
                       [AllowedIP.mk "8.8.8.8" "office"])
                    Scenario.loopback_only))) = true.
Proof.
  assert (H1 : ∀ x, x ∈ addresses Scenario.loopback_only →
                    x ∈ addresses
                          (set_allowed_ip
                             (allowed_ip Scenario.loopback_only ++
                                [AllowedIP.mk "8.8.8.8" "office"])
                             Scenario.loopback_only))
    by (intros x Hx; apply list_elem_of_singleton in Hx; subst x;
        apply list_elem_of_here).
  assert (H2 : existsb is_get_response
                 (calls_of (run Scenario.clean Scenario.view (__call__ Scenario.local)
                              Scenario.loopback_only)) = true)
    by reflexivity.
  split; [exact H1|]. split; [exact H2|].
  exact (allowlist_monotone Scenario.clean Scenario.view _ _ _ H1 H2).
Defined.

Lemma view_leaves_tables (r : HttpRequest) (w' : World) :
  allowed_ip (Scenario.view r w').2 = allowed_ip w' ∧
  blocked_ip_log (Scenario.view r w').2 = blocked_ip_log w'.
Proof. split; reflexivity. Defined.

(** 8.8.8.8, then 127.0.0.1, then an empty peer address, then 8.8.8.8
    again: two rows, in that order. *)
Lemma serve_logs_denied_in_order_witness :
  (∀ r w', allowed_ip (Scenario.view r w').2 = allowed_ip w' ∧
           blocked_ip_log (Scenario.view r w').2 = blocked_ip_log w') ∧
  allowed_ip
    (serve Scenario.clean Scenario.view
       [Scenario.outsider; Scenario.local; Scenario.nameless; Scenario.outsider]
       Scenario.loopback_only)
    = allowed_ip Scenario.loopback_only ∧
  map log_entry
    (blocked_ip_log
       (serve Scenario.clean Scenario.view
          [Scenario.outsider; Scenario.local; Scenario.nameless;
           Scenario.outsider]
          Scenario.loopback_only))
    = map log_entry (blocked_ip_log Scenario.loopback_only) ++
        omap (logged Scenario.clean Scenario.loopback_only)
          [Scenario.outsider; Scenario.local; Scenario.nameless;
           Scenario.outsider].
Proof.
  split; [exact view_leaves_tables|].
  exact (serve_logs_denied_in_order Scenario.clean Scenario.view
           [Scenario.outsider; Scenario.local; Scenario.nameless;
            Scenario.outsider]
           Scenario.loopback_only view_leaves_tables).
Defined.

Example serve_four_requests :
  map log_entry
    (blocked_ip_log
       (serve Scenario.clean Scenario.view
          [Scenario.outsider; Scenario.local; Scenario.nameless;
           Scenario.outsider]
          Scenario.loopback_only))
  = [("8.8.8.8", "/admin/"); ("8.8.8.8", "/admin/")].
Proof. reflexivity. Qed.

(** Three requests through the silent view: six lines. *)
Lemma serve_prints_two_lines_witness :
  (∀ r w', stdout (Scenario.silent r w').2 = stdout w') ∧
  length
    (stdout
       (serve Scenario.clean Scenario.silent
          [Scenario.outsider; Scenario.local; Scenario.outsider]
          Scenario.loopback_only))
    = length (stdout Scenario.loopback_only) +
      2 * length [Scenario.outsider; Scenario.local; Scenario.outsider].
Proof.
  assert (H : ∀ r w', stdout (Scenario.silent r w').2 = stdout w')
    by (intros r w'; reflexivity).
  split; [exact H|].
  exact (serve_prints_two_lines Scenario.clean Scenario.silent _ Scenario.loopback_only H).
Defined.

(** The seeding step twice on the fresh tables. *)
Lemma seeding_not_rerunnable_witness :
  result_of (run Scenario.clean Scenario.view add_default_ip Scenario.fresh) = Returned tt ∧
  (let once := world_of (run Scenario.clean Scenario.view add_default_ip Scenario.fresh) in
   result_of (run Scenario.clean Scenario.view add_default_ip once) = Raised IntegrityError ∧
   world_of (run Scenario.clean Scenario.view add_default_ip once) = once ∧
   length (calls_of (run Scenario.clean Scenario.view add_default_ip once)) = 1).
Proof.
  assert (H : result_of (run Scenario.clean Scenario.view add_default_ip Scenario.fresh)
              = Returned tt) by reflexivity.
  split; [exact H|].
  exact (seeding_not_rerunnable Scenario.clean Scenario.view Scenario.fresh H).
Defined.

(** The loopback row against itself. *)
Lemma str_tells_rows_apart_witness :
  Py.contains " " (AllowedIP.ip_address
                     (AllowedIP.mk "127.0.0.1" "localhost default access"))
    = false ∧
  AllowedIP.__str__ (AllowedIP.mk "127.0.0.1" "localhost default access")
    = AllowedIP.__str__ (AllowedIP.mk "127.0.0.1" "localhost default access") ∧
  AllowedIP.mk "127.0.0.1" "localhost default access"
    = AllowedIP.mk "127.0.0.1" "localhost default access".
Proof.
  assert (H1 : Py.contains " " (AllowedIP.ip_address
                 (AllowedIP.mk "127.0.0.1" "localhost default access")) = false)
    by reflexivity.
  assert (H2 : AllowedIP.__str__
                 (AllowedIP.mk "127.0.0.1" "localhost default access")
               = AllowedIP.__str__
                   (AllowedIP.mk "127.0.0.1" "localhost default access"))
    by reflexivity.
  split; [exact H1|]. split; [exact H2|].
  exact (str_tells_rows_apart _ _ H1 H1 H2).
Defined.

Example loopback_row_text :
  AllowedIP.__str__ (AllowedIP.mk "127.0.0.1" "localhost default access")
  = "127.0.0.1 - localhost default access".
Proof. reflexivity. Qed.
